(** * create_project.py: provisioning of Flywheel groups and projects

    A shallow embedding of [project_management/src/create_project.py] and
    the properties of its name sanitizer, existence probe, creation
    operations and project visitor.

    Conventions of the embedding.

    - In the embedded operations a Python [str] is a [string] whose
      characters are the code points U+0000 .. U+00FF: an [ascii] is read
      as the code point with the same number.  [str.lower] and
      [str.isalnum] are written out for that range from the Unicode
      character database (the range is closed under [lower]).  Module
      [AnyStr] has the sanitizer's value over strings of arbitrary code
      points, with [str.lower] and [str.isalnum] as parameters.
    - Exceptions are values of [exn]; a computation returns [Ok v] or
      [Raise e] together with the world it leaves behind.
    - The Flywheel client is a parameter: a state type with the four calls
      the script makes.  A function entered with its parameter [fw] bound
      acts on that client.
    - A call that leaves a required parameter unbound raises [TypeError]
      when it is made.  The source's calls of [flywheel_path_exists]
      (lines 91 and 126), of [create_flywheel_group] (lines 150 and 222)
      and of [create_flywheel_project] (lines 154, 174 and 203) do not
      pass [fw] and are embedded as such calls ([without_fw]).
    - [DRYRUN] is a parameter; the source binds it to [True]. *)

From Stdlib Require Import String Ascii List NArith ZArith Bool Lia DecimalString.
Import ListNotations.
Local Open Scope string_scope.

(** ** Python strings over U+0000 .. U+00FF *)

Module PyStr.

Definition ord (c : ascii) : N := N_of_ascii c.
(** The character with code point [n], for [n] below 256. *)
Definition chr (n : N) : ascii := ascii_of_N n.

Definition between (lo hi : N) (c : ascii) : bool :=
  (lo <=? ord c)%N && (ord c <=? hi)%N.

Definition is_code (n : N) (c : ascii) : bool := (ord c =? n)%N.

(** [str.lower] on one code point: A-Z, U+00C0-U+00D6 and U+00D8-U+00DE
    have a lower-case mapping, 32 code points up. *)
Definition char_lower (c : ascii) : ascii :=
  if between 65 90 c || between 192 214 c || between 216 222 c
  then chr (ord c + 32)
  else c.

(** [str.isalnum] on one code point: general categories L* and the
    characters with a numeric type. *)
Definition char_isalnum (c : ascii) : bool :=
  between 48 57 c || between 65 90 c || between 97 122 c
  || is_code 170 c || is_code 178 c || is_code 179 c || is_code 181 c
  || is_code 185 c || is_code 186 c || between 188 190 c
  || between 192 214 c || between 216 246 c || between 248 255 c.

Fixpoint map_chars (f : ascii -> ascii) (s : string) : string :=
  match s with
  | EmptyString => EmptyString
  | String c s' => String (f c) (map_chars f s')
  end.

Fixpoint filter_chars (p : ascii -> bool) (s : string) : string :=
  match s with
  | EmptyString => EmptyString
  | String c s' => if p c then String c (filter_chars p s') else filter_chars p s'
  end.

(** [str.lower] on a string of this range, where it acts character by
    character: the range has no capital sigma and no character whose
    lower-case form is longer than one character. *)
Definition lower (s : string) : string := map_chars char_lower s.

(** [s.replace(old, new)] for one-character [old] and [new]. *)
Definition replace1 (old new : ascii) (s : string) : string :=
  map_chars (fun c => if Ascii.eqb c old then new else c) s.

(** [s[:n]] *)
Fixpoint slice_to (n : nat) (s : string) : string :=
  match n, s with
  | O, _ => EmptyString
  | S _, EmptyString => EmptyString
  | S n', String c s' => String c (slice_to n' s')
  end.

Definition chars (s : string) : list ascii := list_ascii_of_string s.

Fixpoint repeat_char (c : ascii) (n : nat) : string :=
  match n with
  | O => EmptyString
  | S n' => String c (repeat_char c n')
  end.

(** [str(n)] for a natural number. *)
Definition of_nat (n : nat) : string := NilEmpty.string_of_uint (Nat.to_uint n).

(** The character class [[a-z0-9_-]]. *)
Definition in_ident_class (c : ascii) : bool :=
  between 97 122 c || between 48 57 c || is_code 95 c || is_code 45 c.

Definition is_ascii (c : ascii) : bool := (ord c <? 128)%N.

End PyStr.

(** ** The sanitizer's value *)

(** The test of the loop body: [c.isalnum() or c in ['-','_']]. *)
Definition keeps (c : ascii) : bool :=
  PyStr.char_isalnum c || (Ascii.eqb c "-" || Ascii.eqb c "_").

(** The loop [for c in modname: safe_name += c if ... else ""], started
    with the value [safe_name] has on entry. *)
Fixpoint keep_loop (safe_name modname : string) : string :=
  match modname with
  | EmptyString => safe_name
  | String c rest =>
      keep_loop (safe_name ++ (if keeps c then String c EmptyString else EmptyString)) rest
  end.

(** The value bound to [safe_name] when [sanitize_name] reaches its
    comparison with [name]. *)
Definition safe_name (name : string) (groupid : bool) : string :=
  if groupid then
    let modname := PyStr.lower name in
    let modname := PyStr.replace1 " " "_" modname in
    keep_loop "" modname
  else PyStr.slice_to 64 name.

(** What lower-casing and the replacement of spaces do to one character. *)
Definition ident_char (c : ascii) : ascii :=
  (fun c => if Ascii.eqb c " " then "_"%char else c) (PyStr.char_lower c).

(** ** The sanitizer's value over arbitrary code points *)

Module AnyStr.

(** A [str]: its code points, in order. *)
Definition str : Type := list N.

Section Tables.

(** [str.lower], on a whole string: the mapping looks at the characters
    around a capital sigma and may give several characters for one. *)
Variable lower : str -> str.

(** [c.isalnum()] for a one-character string. *)
Variable isalnum : N -> bool.

(** [s.replace(" ", "_")] *)
Definition replace_space (s : str) : str :=
  map (fun c => if (c =? 32)%N then 95%N else c) s.

(** [c.isalnum() or c in ['-','_']] *)
Definition keeps (c : N) : bool :=
  isalnum c || ((c =? 45)%N || (c =? 95)%N).

Fixpoint keep_loop (safe_name modname : str) : str :=
  match modname with
  | [] => safe_name
  | c :: rest =>
      keep_loop (safe_name ++ (if keeps c then [c] else []))%list rest
  end.

(** Lines 42-51: the value bound to [safe_name]. *)
Definition safe_name (name : str) (groupid : bool) : str :=
  if groupid then
    let modname := lower name in
    let modname := replace_space modname in
    keep_loop [] modname
  else firstn 64 name.

(** What the idempotence of the identifier rule asks of [str.lower]: a
    string made of characters that occur in lower-cased strings, and of
    underscores, is its own lower-case form. *)
Definition lower_settles : Prop :=
  forall s t,
    Forall (fun c => In c (lower s) \/ c = 95%N) t -> lower t = t.

End Tables.

(** The code points of a string of the range U+0000 .. U+00FF. *)
Definition codes (s : string) : str := map PyStr.ord (PyStr.chars s).

(** The tables of the embedded operations, [PyStr.char_lower] and
    [PyStr.char_isalnum], as tables on code points. *)
Definition latin1_lower (s : str) : str :=
  map (fun n => PyStr.ord (PyStr.char_lower (PyStr.chr n))) s.

Definition latin1_isalnum (n : N) : bool := PyStr.char_isalnum (PyStr.chr n).

End AnyStr.

(** ** Exceptions, results and the domain model *)

(** What [yaml.YAMLError] carries for the handler in [main]: no
    [problem_mark] attribute, the attribute bound to [None], or a mark
    with its 0-based line and column. *)
Inductive problem_mark : Type :=
| NoMarkAttribute
| MarkNone
| Mark (line column : nat).

Inductive exn : Type :=
| ApiException (status : Z)
| YAMLError (mark : problem_mark)
| AssertionError
| TypeError
| AttributeError
| SystemExit (code : Z)
| OtherError (what : string).

Inductive result (A : Type) : Type :=
| Ok (a : A)
| Raise (e : exn).

Arguments Ok {A} a.
Arguments Raise {A} e.

(** Modelled from the spec: the [Center] class of
    [common.src.projects.project], a value object with a name and an
    active flag. *)
Module Center.
Record t : Type := Build { name : string; is_active : bool }.
End Center.

(** Modelled from the spec: the [Project] class of
    [common.src.projects.project], with its name, its centers in source
    order, its datatype names, the published flag and the primary-project
    predicate. *)
Module Project.
Record t : Type := Build {
  name : string;
  centers : list Center.t;
  datatypes : list string;
  is_published : bool;
  is_primary : bool
}.
End Project.

Inductive level : Type := INFO | WARNING | ERROR.

(** The Flywheel client: the state of the remote instance and the four
    calls made on it.  [lookup] returns an entity the script never reads. *)
Record Client : Type := {
  remote : Type;
  group : Type;
  lookup : string -> remote -> result unit * remote;
  add_group : string -> string -> remote -> result string * remote;
  get_group : string -> remote -> result group * remote;
  add_project : group -> string -> remote -> result unit * remote
}.

(** A call made on the client. *)
Inductive ApiCall (G : Type) : Type :=
| CallLookup (path : string)
| CallAddGroup (id label : string)
| CallGetGroup (id : string)
| CallAddProject (g : G) (label : string).

Arguments CallLookup {G} path.
Arguments CallAddGroup {G} id label.
Arguments CallGetGroup {G} id.
Arguments CallAddProject {G} g label.

(** An entry into the body of one of the two creation operations, with
    the arguments it was given.  The history of entries is kept next to
    the world. *)
Inductive Request : Type :=
| GroupRequest (group_label group_id : string)
| ProjectRequest (group_id project_id project_label : string).

Definition is_mutation {G} (c : ApiCall G) : bool :=
  match c with
  | CallLookup _ => false
  | _ => true
  end.

(** The exit status the interpreter gives the process. *)
Definition exit_status (r : result unit) : Z :=
  match r with
  | Ok _ => 0
  | Raise (SystemExit code) => code
  | Raise _ => 1
  end.


(** ** Clients to run the script against *)

(** A client without state whose [lookup] always gives the same answer. *)
Module Canned.

Definition client (answer : result unit) : Client :=
  {| remote := unit; group := string;
     lookup := fun _ s => (answer, s);
     add_group := fun id _ s => (Ok id, s);
     get_group := fun id s => (Ok id, s);
     add_project := fun _ _ s => (Ok tt, s) |}.

End Canned.

(** Sample inputs. *)
Module Sample.

(** Modelled from the spec: a slug function that agrees with the one
    example the spec gives, "Site A" to "site-a": lower case, spaces to
    dashes. *)
Definition slug (s : string) : string := PyStr.replace1 " " "-" (PyStr.lower s).

Definition char_upper (c : ascii) : ascii :=
  if PyStr.between 97 122 c then PyStr.chr (PyStr.ord c - 32) else c.

(** [str.capitalize] on strings of ASCII characters. *)
Definition capitalize (s : string) : string :=
  match s with
  | EmptyString => EmptyString
  | String c rest => String (char_upper c) (PyStr.lower rest)
  end.

(** The document of the spec's end-to-end scenario. *)
Definition adrc : Project.t :=
  Project.Build "ADRC" [Center.Build "Site A" true] ["form"] false true.

(** A published project without centers. *)
Definition adrc_release_only : Project.t :=
  Project.Build "ADRC" [] ["form"] true true.

Definition site_x : Center.t := Center.Build "X" false.

(** The project of the spec's inactive-center example. *)
Definition with_inactive : Project.t :=
  Project.Build "ADRC" [site_x] ["form"; "dicom"] false true.

(** A client whose lookups fail with status 500, one whose lookups fail
    outside the API, and one that finds nothing. *)
Definition failing_500 : Client := Canned.client (Raise (ApiException 500)).

Definition unreachable : Client :=
  Canned.client (Raise (OtherError "connection reset")).

Definition absent : Client := Canned.client (Raise (ApiException 404)).

(** U+00E9, LATIN SMALL LETTER E WITH ACUTE. *)
Definition e_acute : string := String (PyStr.chr 233) EmptyString.

(** The code points of "Site A!". *)
Definition site_a_bang : AnyStr.str := [83; 105; 116; 101; 32; 65; 33]%N.

End Sample.

Declare Scope script_scope.
Delimit Scope script_scope with script.

Section Script.

Variable fw : Client.
Variable DRYRUN : bool.

(** [convert_to_slug] of [common.src.projects.project]. *)
Variable convert_to_slug : string -> string.

(** [str.capitalize]; its value on U+00B5, U+00DF and U+00FF lies outside
    U+0000 .. U+00FF. *)
Variable capitalize : string -> string.

(** A parsed YAML document and [Project.create]. *)
Variable Doc : Type.
Variable Project_create : Doc -> result Project.t.

Record World : Type := mkWorld {
  store : remote fw;
  api_calls : list (ApiCall (group fw));
  requests : list Request;
  logs : list (level * string);
  current_project : option Project.t
}.

Definition M (A : Type) : Type := World -> result A * World.

Definition ret {A} (a : A) : M A := fun w => (Ok a, w).

Definition raise {A} (e : exn) : M A := fun w => (Raise e, w).

Definition bind {A B} (m : M A) (k : A -> M B) : M B :=
  fun w =>
    match m w with
    | (Ok a, w') => k a w'
    | (Raise e, w') => (Raise e, w')
    end.

Notation "x <- m ;; k" := (bind m (fun x => k))
  (at level 61, m at next level, right associativity) : script_scope.
Notation "m ;; k" := (bind m (fun _ => k))
  (at level 61, right associativity) : script_scope.
Local Open Scope script_scope.

(** [try: body / except: handler]; the handler answers [None] for an
    exception no [except] clause matches. *)
Definition try_except {A} (body : M A) (handler : exn -> option (M A)) : M A :=
  fun w =>
    match body w with
    | (Ok a, w') => (Ok a, w')
    | (Raise e, w') =>
        match handler e with
        | Some h => h w'
        | None => (Raise e, w')
        end
    end.

(** [try: body / except: handler / else: orelse]: the [else] suite runs
    after a [body] that raised nothing, outside the handler's reach. *)
Definition try_except_else {A B} (body : M A) (handler : exn -> option (M B))
    (orelse : A -> M B) : M B :=
  fun w =>
    match body w with
    | (Ok a, w') => orelse a w'
    | (Raise e, w') =>
        match handler e with
        | Some h => h w'
        | None => (Raise e, w')
        end
    end.

Fixpoint for_each {A} (body : A -> M unit) (l : list A) : M unit :=
  match l with
  | [] => ret tt
  | x :: rest => body x ;; for_each body rest
  end.

Definition lift {A} (r : result A) : M A := fun w => (r, w).

Definition logging (lvl : level) (msg : string) : M unit :=
  fun w => (Ok tt, mkWorld (store w) (api_calls w) (requests w)
                           (logs w ++ [(lvl, msg)]) (current_project w)).

Definition get_current : M (option Project.t) :=
  fun w => (Ok (current_project w), w).

Definition set_current (p : option Project.t) : M unit :=
  fun w => (Ok tt, mkWorld (store w) (api_calls w) (requests w) (logs w) p).

Definition note_request (r : Request) : M unit :=
  fun w => (Ok tt, mkWorld (store w) (api_calls w) (requests w ++ [r])
                           (logs w) (current_project w)).

(** One call on the client: it is recorded, and the client moves the
    remote state and answers. *)
Definition api {A} (c : ApiCall (group fw))
    (call : remote fw -> result A * remote fw) : M A :=
  fun w =>
    let (r, s) := call (store w) in
    (r, mkWorld s (api_calls w ++ [c]) (requests w) (logs w) (current_project w)).

Definition fw_lookup (path : string) : M unit :=
  api (CallLookup path) (lookup fw path).

Definition fw_add_group (id label : string) : M string :=
  api (CallAddGroup id label) (add_group fw id label).

Definition fw_get_group (id : string) : M (group fw) :=
  api (CallGetGroup id) (get_group fw id).

Definition group_add_project (g : group fw) (label : string) : M unit :=
  api (CallAddProject g label) (add_project fw g label).

(** *** [sanitize_name] *)

Definition sanitize_name (name : string) (groupid : bool) : M string :=
  let safe_name := safe_name name groupid in
  (if negb (String.eqb safe_name name)
   then logging INFO ("changed from " ++ name ++ " to " ++ safe_name)
   else ret tt) ;;
  ret safe_name.

(** *** [flywheel_path_exists]

    [Some b] stands for a [return b] taken inside the [try] statement,
    [None] for falling out of it. *)
Definition flywheel_path_exists (fwpath : string) : M bool :=
  returned <-
    try_except
      (fw_lookup fwpath ;; ret None)
      (fun e =>
         match e with
         | ApiException status =>
             Some (if (status =? 404)%Z then ret (Some false) else ret None)
         | _ => None
         end) ;;
  match returned with
  | Some b => ret b
  | None => ret true
  end.

(** *** Calls that do not pass [fw]

    [flywheel_path_exists] (line 58), [create_flywheel_group] (line 78)
    and [create_flywheel_project] (lines 109-110) declare the parameter
    [fw] without a default.  A call that does not pass it raises
    [TypeError] when it is made: the arguments have been evaluated, the
    body of [callee] is not entered. *)
Definition without_fw {A} (callee : M A) : M A := raise TypeError.

(** *** [create_flywheel_group], entered with [fw] bound *)

Definition create_flywheel_group (group_label group_id : string) : M string :=
  note_request (GroupRequest group_label group_id) ;;
  group_label <- sanitize_name group_label false ;;
  group_id <- sanitize_name group_id true ;;
  found <- without_fw (flywheel_path_exists group_id) ;;
  if found then
    logging INFO ("Flywheel group " ++ group_id ++ " already exists") ;;
    ret group_id
  else
    logging INFO "Creating group" ;;
    logging INFO ("  group label: " ++ group_label) ;;
    logging INFO ("  group ID: " ++ group_id) ;;
    if DRYRUN then ret group_id
    else
      group_id <- fw_add_group group_id group_label ;;
      logging INFO (String (PyStr.chr 9) "success") ;;
      ret group_id.

(** *** [create_flywheel_project], entered with [fw] bound *)

Definition create_flywheel_project (group_id project_id project_label : string)
    : M string :=
  note_request (ProjectRequest group_id project_id project_label) ;;
  project_label <- sanitize_name project_label false ;;
  let project_path := group_id ++ "/" ++ project_id in
  let project_ref := "fw://" ++ project_path in
  found <- without_fw (flywheel_path_exists project_path) ;;
  if found then
    logging INFO ("Flywheel group " ++ project_ref ++ " already exists") ;;
    ret project_ref
  else
    logging INFO "Creating project" ;;
    logging INFO ("  project: " ++ project_ref) ;;
    logging INFO ("  project name: " ++ project_label) ;;
    if DRYRUN then ret project_ref
    else
      g <- fw_get_group group_id ;;
      group_add_project g project_label ;;
      ret project_ref.

(** The body of [create_flywheel_project] with the call of line 126 left
    open: [probe] stands for whatever that call does.  The function of the
    source is the instance [create_flywheel_project] above, where the call
    does not pass [fw]. *)
Definition create_flywheel_project_after (probe : string -> M bool)
    (group_id project_id project_label : string) : M string :=
  note_request (ProjectRequest group_id project_id project_label) ;;
  project_label <- sanitize_name project_label false ;;
  let project_path := group_id ++ "/" ++ project_id in
  let project_ref := "fw://" ++ project_path in
  found <- probe project_path ;;
  if found then
    logging INFO ("Flywheel group " ++ project_ref ++ " already exists") ;;
    ret project_ref
  else
    logging INFO "Creating project" ;;
    logging INFO ("  project: " ++ project_ref) ;;
    logging INFO ("  project name: " ++ project_label) ;;
    if DRYRUN then ret project_ref
    else
      g <- fw_get_group group_id ;;
      group_add_project g project_label ;;
      ret project_ref.

(** *** [create_release] *)

Definition create_release (project : Project.t) : M unit :=
  group_id <- without_fw
                (create_flywheel_group
                   (Project.name project ++ " Release")
                   ("release-" ++ convert_to_slug (Project.name project))) ;;
  without_fw
    (create_flywheel_project group_id "master-project" "Master Project") ;;
  ret tt.

(** *** [FlywheelProjectArtifactCreator]

    The visitor's one field, [__current_project], is the
    [current_project] of the world. *)

Definition build_project_id (prefix : string) : M string :=
  current <- get_current ;;
  match current with
  | None => raise AssertionError
  | Some p =>
      if Project.is_primary p then ret prefix
      else ret (prefix ++ "-" ++ convert_to_slug (Project.name p))
  end.

Definition create_accepted (group_id : string) : M unit :=
  current <- get_current ;;
  match current with
  | None => raise AssertionError
  | Some p =>
      project_id <- build_project_id "accepted" ;;
      without_fw
        (create_flywheel_project group_id project_id
           (Project.name p ++ " Accepted")) ;;
      ret tt
  end.

Definition create_ingest (group_id : string) : M unit :=
  current <- get_current ;;
  match current with
  | None => raise AssertionError
  | Some p =>
      for_each
        (fun datatype =>
           project_id <- build_project_id ("ingest-" ++ PyStr.lower datatype) ;;
           without_fw
             (create_flywheel_project group_id project_id
                (Project.name p ++ " " ++ capitalize datatype ++ " Ingest")) ;;
           ret tt)
        (Project.datatypes p)
  end.

Definition visit_center (center : Center.t) : M unit :=
  current <- get_current ;;
  match current with
  | None => logging ERROR "No project given"
  | Some p =>
      group_id <- without_fw
                    (create_flywheel_group (Center.name center)
                       (convert_to_slug (Center.name center))) ;;
      (if Center.is_active center then
         match Project.datatypes p with
         | _ :: _ => create_ingest group_id
         | [] =>
             logging WARNING
               ("No ingest groups created for " ++ Project.name p
                ++ ": no datatypes given")
         end
       else
         logging INFO
           ("Not creating ingest for inactive center " ++ Center.name center)) ;;
      create_accepted group_id
  end.

(** Modelled from the spec: [Center.apply] dispatches to the visitor's
    [visit_center]. *)
Definition Center_apply (center : Center.t) : M unit := visit_center center.

Definition visit_project (project : Project.t) : M unit :=
  set_current (Some project) ;;
  (match Project.centers project with
   | _ :: _ => for_each Center_apply (Project.centers project)
   | [] =>
       logging WARNING
         ("Not creating center groups for project " ++ Project.name project
          ++ ": no centers given")
   end) ;;
  (if Project.is_published project then create_release project
   else
     logging INFO
       ("Project " ++ Project.name project ++ " has no release project")) ;;
  set_current None.

(** [visit_datatype]: the visitor does nothing at a datatype. *)
Definition visit_datatype (datatype : string) : M unit := ret tt.

(** Modelled from the spec: [Project.apply] dispatches to the visitor's
    [visit_project]. *)
Definition Project_apply (project : Project.t) : M unit := visit_project project.

(** *** [main]

    [loaded] is what [yaml.safe_load_all(stream)] does on the opened
    file: the call raises, or it hands back a generator, and the
    generator is what [list()] gets out of it: the documents, or an
    exception raised while they are read.  [yaml.safe_load_all] is a
    generator function, which reads nothing before its generator is
    iterated: on a run of the script [loaded] is [Ok g], and a YAML that
    does not parse shows as a [g] that raises. *)

Definition generator : Type := result (list Doc).

Definition main (project_file : string) (loaded : result generator) : M unit :=
  project_list <-
    try_except_else
      (lift loaded)
      (fun exception =>
         match exception with
         | YAMLError mark =>
             Some
               (logging ERROR ("Error in YAML file: " ++ project_file) ;;
                (match mark with
                 | NoMarkAttribute => ret tt
                 | MarkNone => raise AttributeError
                 | Mark line column =>
                     logging ERROR
                       ("Error: line " ++ PyStr.of_nat (line + 1)
                        ++ ", column " ++ PyStr.of_nat (column + 1))
                 end) ;;
                raise (SystemExit 1))
         | _ => None
         end)
      (fun project_gen => lift project_gen) ;;
  set_current None ;;
  for_each
    (fun project_doc =>
       project <- lift (Project_create project_doc) ;;
       Project_apply project)
    project_list.

(** What a computation can change apart from the logs. *)

(** What a computation can change apart from the logs. *)
Definition effects (w : World)
    : remote fw * list (ApiCall (group fw)) * list Request * option Project.t :=
  (store w, api_calls w, requests w, current_project w).

(** The whole process: [main] run from a fresh world, and the exit status. *)
Definition run_script (project_file : string) (loaded : result generator)
    (s : remote fw) : Z * World :=
  let (r, w) := main project_file loaded (mkWorld s [] [] [] None) in
  (exit_status r, w).

(** The calls of a world that are not lookups. *)
Definition mutations (w : World) : list (ApiCall (group fw)) :=
  filter is_mutation (api_calls w).

(** [m] leaves the observation [f] of the world as it was, whether it
    returns or raises. *)
Definition unchanged {X A} (f : World -> X) (m : M A) : Prop :=
  forall w, f (snd (m w)) = f w.

(** The world a process starts in, for a given remote state. *)
Definition boot (s : remote fw) : World := mkWorld s [] [] [] None.

(** * Properties *)

(** ** Characters *)

(** Case analysis on the 256 code points. *)
Ltac each_code_point c :=
  destruct c as [[] [] [] [] [] [] [] []]; vm_compute; try reflexivity; try discriminate.

Lemma kept_ascii_in_class (c : ascii) :
  PyStr.is_ascii c = true -> keeps (ident_char c) = true ->
  PyStr.in_ident_class (ident_char c) = true.
Proof. each_code_point c. Qed.

Lemma class_char_fixed (c : ascii) :
  PyStr.in_ident_class c = true -> ident_char c = c /\ keeps c = true.
Proof.
  destruct c as [[] [] [] [] [] [] [] []]; vm_compute; intros H;
    try discriminate H; auto.
Qed.

(** ** Strings *)

Lemma append_nil_r (s : string) : s ++ "" = s.
Proof. induction s as [|c s IH]; simpl; [reflexivity | now rewrite IH]. Qed.

Lemma append_assoc (a b c : string) : (a ++ b) ++ c = a ++ (b ++ c).
Proof. induction a as [|x a IH]; simpl; [reflexivity | now rewrite IH]. Qed.

Lemma map_chars_compose (f g : ascii -> ascii) (s : string) :
  PyStr.map_chars g (PyStr.map_chars f s) = PyStr.map_chars (fun c => g (f c)) s.
Proof. induction s as [|c s IH]; simpl; [reflexivity | now rewrite IH]. Qed.

Lemma length_slice_to (n : nat) (s : string) :
  String.length (PyStr.slice_to n s) <= n.
Proof.
  revert s; induction n as [|n IH]; intros [|c s]; simpl; try lia.
  specialize (IH s); lia.
Qed.

Lemma length_repeat_char (c : ascii) (n : nat) :
  String.length (PyStr.repeat_char c n) = n.
Proof. induction n as [|n IH]; simpl; [reflexivity | now rewrite IH]. Qed.

(** ** The sanitizer's value *)

(** The loop is a filter appended to what [safe_name] held on entry. *)
Lemma keep_loop_filter (acc s : string) :
  keep_loop acc s = acc ++ PyStr.filter_chars keeps s.
Proof.
  revert acc; induction s as [|c s IH]; intros acc; simpl.
  - now rewrite append_nil_r.
  - rewrite IH, append_assoc. destruct (keeps c); reflexivity.
Qed.

Lemma safe_name_groupid (name : string) :
  safe_name name true = PyStr.filter_chars keeps (PyStr.map_chars ident_char name).
Proof.
  unfold safe_name, PyStr.lower, PyStr.replace1.
  rewrite keep_loop_filter, map_chars_compose. reflexivity.
Qed.

Lemma safe_name_label (name : string) :
  safe_name name false = PyStr.slice_to 64 name.
Proof. reflexivity. Qed.

Lemma safe_name_groupid_ascii (name : string) :
  Forall (fun c => PyStr.is_ascii c = true) (PyStr.chars name) ->
  Forall (fun c => PyStr.in_ident_class c = true)
         (PyStr.chars (safe_name name true)).
Proof.
  rewrite safe_name_groupid.
  induction name as [|c s IH];
    cbn [PyStr.filter_chars PyStr.map_chars PyStr.chars list_ascii_of_string];
    intros H; [constructor|].
  inversion H as [|? ? Hc Hs]; subst.
  destruct (keeps (ident_char c)) eqn:K; [|now apply IH].
  cbn [PyStr.chars list_ascii_of_string]. constructor; [|now apply IH].
  now apply kept_ascii_in_class.
Qed.

Lemma safe_name_groupid_clean (name : string) :
  Forall (fun c => PyStr.in_ident_class c = true) (PyStr.chars name) ->
  safe_name name true = name.
Proof.
  rewrite safe_name_groupid.
  induction name as [|c s IH];
    cbn [PyStr.filter_chars PyStr.map_chars PyStr.chars list_ascii_of_string];
    intros H; [reflexivity|].
  inversion H as [|? ? Hc Hs]; subst.
  destruct (class_char_fixed c Hc) as [E K].
  rewrite E, K, IH by assumption. reflexivity.
Qed.

Lemma repeat_a_clean (n : nat) :
  Forall (fun c => PyStr.in_ident_class c = true)
         (PyStr.chars (PyStr.repeat_char "a" n)).
Proof. induction n as [|n IH]; simpl; constructor; [reflexivity | exact IH]. Qed.

(** ** Running computations *)

Lemma bind_ok {A B} (m : M A) (k : A -> M B) (w w' : World) (a : A) :
  m w = (Ok a, w') -> bind m k w = k a w'.
Proof. unfold bind; intros ->; reflexivity. Qed.

Lemma bind_raise {A B} (m : M A) (k : A -> M B) (w w' : World) (e : exn) :
  m w = (Raise e, w') -> bind m k w = (Raise e, w').
Proof. unfold bind; intros ->; reflexivity. Qed.

Ltac unfold_ops :=
  unfold create_flywheel_group, create_flywheel_project, without_fw,
    flywheel_path_exists, sanitize_name, try_except, fw_lookup, fw_add_group,
    fw_get_group, group_add_project, api, note_request, logging, get_current,
    set_current, lift, bind, ret, raise, effects.

Lemma sanitize_name_run (name : string) (groupid : bool) (w : World) :
  fst (sanitize_name name groupid w) = Ok (safe_name name groupid)
  /\ effects (snd (sanitize_name name groupid w)) = effects w.
Proof.
  unfold_ops. destruct (negb (safe_name name groupid =? name)); split; reflexivity.
Qed.

Lemma sanitize_name_unchanged (name : string) (groupid : bool) (w : World) :
  safe_name name groupid = name ->
  sanitize_name name groupid w = (Ok name, w).
Proof.
  intros E. unfold_ops. rewrite E, String.eqb_refl. reflexivity.
Qed.

(** The probe makes one [lookup] and turns its answer into a result. *)
Lemma flywheel_path_exists_run (fwpath : string) (w : World) :
  flywheel_path_exists fwpath w =
    (match fst (lookup fw fwpath (store w)) with
     | Ok _ => Ok true
     | Raise (ApiException status) => Ok (negb (status =? 404)%Z)
     | Raise e => Raise e
     end,
     mkWorld (snd (lookup fw fwpath (store w)))
             (api_calls w ++ [CallLookup fwpath]) (requests w) (logs w)
             (current_project w)).
Proof.
  unfold_ops. destruct (lookup fw fwpath (store w)) as [[[]|[]] s]; cbn;
    try reflexivity.
  destruct (status =? 404)%Z; reflexivity.
Qed.

(** ** The existence probe *)

(** C1 (as amended). The probe returns false exactly when the lookup
    raises an [ApiException] whose status is 404.  An [ApiException] with
    any other status is caught as well and the probe returns true, as it
    does when the lookup succeeds; only an exception that is not an
    [ApiException] leaves the probe.  The probe makes the one lookup call. *)
Theorem flywheel_path_exists_answers (fwpath : string) (w : World) :
  let reply := fst (lookup fw fwpath (store w)) in
  let probe := fst (flywheel_path_exists fwpath w) in
  (probe = Ok false <-> reply = Raise (ApiException 404))
  /\ (forall status,
        reply = Raise (ApiException status) -> status <> 404%Z -> probe = Ok true)
  /\ (forall u, reply = Ok u -> probe = Ok true)
  /\ (forall e,
        reply = Raise e -> (forall status, e <> ApiException status) ->
        probe = Raise e)
  /\ api_calls (snd (flywheel_path_exists fwpath w))
     = (api_calls w ++ [CallLookup fwpath])%list.
Proof.
  cbv zeta. rewrite flywheel_path_exists_run. cbn [fst snd api_calls].
  repeat split.
  - destruct (fst (lookup fw fwpath (store w))) as [u|[]]; try discriminate.
    destruct (Z.eqb_spec status 404); [subst; reflexivity | discriminate].
  - intros ->. reflexivity.
  - intros status -> Hs. destruct (Z.eqb_spec status 404); [contradiction | reflexivity].
  - intros u ->. reflexivity.
  - intros e -> He. destruct e; try reflexivity. now contradiction (He status).
Qed.

(** ** The sanitizer *)

(** C3 (the code at the failing input). Under the identifier rule the
    one-character name U+00E9 is returned as it is, and U+00E9 is not in
    [[a-z0-9_-]]. *)
Theorem sanitize_name_groupid_keeps_e_acute (w : World) :
  sanitize_name Sample.e_acute true w = (Ok Sample.e_acute, w)
  /\ ~ Forall (fun c => PyStr.in_ident_class c = true)
              (PyStr.chars Sample.e_acute).
Proof.
  split; [reflexivity|].
  intros H. inversion H as [|? ? Hc _]. discriminate Hc.
Qed.

(** C10. The identifier rule has no length limit: the name of 65 letters
    "a" comes back 65 characters long, and a name of [n] letters "a" comes
    back whole for every [n]; the label rule is the one that cuts, at 64
    characters. *)
Theorem sanitize_name_groupid_unbounded :
  (exists name, forall w : World,
      exists safe,
        fst (sanitize_name name true w) = Ok safe /\ 64 < String.length safe)
  /\ (forall n (w : World),
        sanitize_name (PyStr.repeat_char "a" n) true w
        = (Ok (PyStr.repeat_char "a" n), w))
  /\ (forall name (w : World),
        fst (sanitize_name name false w) = Ok (PyStr.slice_to 64 name)
        /\ String.length (PyStr.slice_to 64 name) <= 64).
Proof.
  assert (A : forall n (w : World),
             sanitize_name (PyStr.repeat_char "a" n) true w
             = (Ok (PyStr.repeat_char "a" n), w)).
  { intros n w. apply sanitize_name_unchanged, safe_name_groupid_clean, repeat_a_clean. }
  split; [|split].
  - exists (PyStr.repeat_char "a" 65). intros w.
    exists (PyStr.repeat_char "a" 65). rewrite A, length_repeat_char.
    split; [reflexivity | lia].
  - exact A.
  - intros name w. split; [apply sanitize_name_run | apply length_slice_to].
Qed.

(** ** The identifier rule over arbitrary code points *)

Lemma anystr_keep_loop_filter (isalnum : N -> bool) (acc s : AnyStr.str) :
  AnyStr.keep_loop isalnum acc s
  = (acc ++ filter (AnyStr.keeps isalnum) s)%list.
Proof.
  revert acc; induction s as [|c s IH]; intros acc; cbn [AnyStr.keep_loop filter].
  - now rewrite app_nil_r.
  - rewrite IH, <- app_assoc. destruct (AnyStr.keeps isalnum c); reflexivity.
Qed.

Lemma anystr_safe_name_groupid (lower : AnyStr.str -> AnyStr.str)
    (isalnum : N -> bool) (name : AnyStr.str) :
  AnyStr.safe_name lower isalnum name true
  = filter (AnyStr.keeps isalnum) (AnyStr.replace_space (lower name)).
Proof. unfold AnyStr.safe_name. now rewrite anystr_keep_loop_filter. Qed.

Lemma filter_all {A} (p : A -> bool) (l : list A) :
  Forall (fun x => p x = true) l -> filter p l = l.
Proof.
  induction 1 as [|x l Hx _ IH]; cbn [filter]; [reflexivity|].
  now rewrite Hx, IH.
Qed.

Lemma replace_space_none (s : AnyStr.str) :
  Forall (fun c => c <> 32%N) s -> AnyStr.replace_space s = s.
Proof.
  unfold AnyStr.replace_space.
  induction 1 as [|c s Hc _ IH]; cbn [map]; [reflexivity|].
  destruct (N.eqb_spec c 32); [contradiction | now rewrite IH].
Qed.

(** What is known of a character the identifier rule kept. *)
Lemma anystr_kept (lower : AnyStr.str -> AnyStr.str) (isalnum : N -> bool)
    (name : AnyStr.str) :
  Forall (fun c => (In c (lower name) \/ c = 95%N)
                   /\ c <> 32%N /\ AnyStr.keeps isalnum c = true)
         (AnyStr.safe_name lower isalnum name true).
Proof.
  rewrite anystr_safe_name_groupid. apply Forall_forall. intros c Hc.
  apply filter_In in Hc. destruct Hc as [Hin Hk].
  unfold AnyStr.replace_space in Hin. apply in_map_iff in Hin.
  destruct Hin as [c0 [E Hc0]].
  destruct (N.eqb_spec c0 32); subst c.
  - split; [right; reflexivity|]. split; [discriminate | exact Hk].
  - split; [left; exact Hc0|]. split; assumption.
Qed.

(** C9. Identifier sanitization is idempotent, for strings of arbitrary
    code points: the value the identifier rule gives for a name is given
    back unchanged when the rule is applied to it.  [str.isalnum] may be
    any table; of [str.lower] the proof uses that a string made of
    characters of lower-cased strings and of underscores is its own
    lower-case form. *)
Theorem identifier_rule_idempotent (lower : AnyStr.str -> AnyStr.str)
    (isalnum : N -> bool) (name : AnyStr.str) :
  AnyStr.lower_settles lower ->
  AnyStr.safe_name lower isalnum
    (AnyStr.safe_name lower isalnum name true) true
  = AnyStr.safe_name lower isalnum name true.
Proof.
  intros Hlower.
  pose proof (anystr_kept lower isalnum name) as K.
  set (t := AnyStr.safe_name lower isalnum name true) in *.
  rewrite anystr_safe_name_groupid.
  assert (L : lower t = t).
  { apply (Hlower name). eapply Forall_impl; [|exact K]. cbv beta. tauto. }
  rewrite L, replace_space_none.
  - apply filter_all. eapply Forall_impl; [|exact K]. cbv beta. tauto.
  - eapply Forall_impl; [|exact K]. cbv beta. tauto.
Qed.

Lemma chr_ord (c : ascii) : PyStr.chr (PyStr.ord c) = c.
Proof. apply ascii_N_embedding. Qed.

Lemma ord_replace_space (c : ascii) :
  (if (PyStr.ord c =? 32)%N then 95%N else PyStr.ord c)
  = PyStr.ord (if Ascii.eqb c " " then "_"%char else c).
Proof. each_code_point c. Qed.

Lemma keeps_ord (c : ascii) :
  AnyStr.keeps AnyStr.latin1_isalnum (PyStr.ord c) = keeps c.
Proof.
  unfold AnyStr.keeps, AnyStr.latin1_isalnum. rewrite chr_ord.
  each_code_point c.
Qed.

Lemma codes_slice_to (n : nat) (s : string) :
  firstn n (AnyStr.codes s) = AnyStr.codes (PyStr.slice_to n s).
Proof.
  revert s; induction n as [|n IH]; intros [|c s]; try reflexivity.
  unfold AnyStr.codes in *. cbn [PyStr.slice_to PyStr.chars list_ascii_of_string map firstn].
  f_equal. apply IH.
Qed.

(** The value the embedded [sanitize_name] computes is the value over
    code points at the tables of the range U+0000 .. U+00FF. *)
Lemma safe_name_over_codes (name : string) (groupid : bool) :
  AnyStr.safe_name AnyStr.latin1_lower AnyStr.latin1_isalnum
    (AnyStr.codes name) groupid
  = AnyStr.codes (safe_name name groupid).
Proof.
  destruct groupid; [|apply codes_slice_to].
  rewrite anystr_safe_name_groupid, safe_name_groupid.
  unfold AnyStr.codes, AnyStr.latin1_lower, AnyStr.replace_space, ident_char.
  induction name as [|c s IH];
    cbn [PyStr.chars list_ascii_of_string map filter PyStr.map_chars
         PyStr.filter_chars]; [reflexivity|].
  rewrite chr_ord, ord_replace_space, keeps_ord.
  unfold PyStr.chars in IH.
  destruct (keeps _); cbn [list_ascii_of_string map]; rewrite IH; reflexivity.
Qed.

(** ** The sanitizer, both rules *)

Lemma slice_to_prefix (n : nat) (s : string) :
  exists rest,
    s = PyStr.slice_to n s ++ rest
    /\ String.length (PyStr.slice_to n s) = Nat.min n (String.length s).
Proof.
  revert s; induction n as [|n IH]; intros [|c s]; cbn [PyStr.slice_to].
  - exists "". split; reflexivity.
  - exists (String c s). split; reflexivity.
  - exists "". split; reflexivity.
  - destruct (IH s) as [rest [E L]]. exists rest. split.
    + cbn [append]. rewrite <- E. reflexivity.
    + cbn [String.length]. rewrite L. reflexivity.
Qed.

(** X1. Under the label rule the sanitizer returns a prefix of the name,
    of length at most 64: the whole name when it has no more than 64
    characters, its first 64 characters otherwise.  No character is
    changed. *)
Theorem sanitize_name_label_prefix (name : string) (w : World) :
  exists safe rest,
    fst (sanitize_name name false w) = Ok safe
    /\ name = safe ++ rest
    /\ String.length safe = Nat.min 64 (String.length name).
Proof.
  destruct (slice_to_prefix 64 name) as [rest [E L]].
  exists (PyStr.slice_to 64 name), rest. split; [apply sanitize_name_run|].
  split; assumption.
Qed.

(** X3. For a name made of ASCII characters the identifier rule returns
    a value all of whose characters are in [[a-z0-9_-]]. *)
Theorem sanitize_name_groupid_ascii_class (name : string) (w : World) :
  Forall (fun c => PyStr.is_ascii c = true) (PyStr.chars name) ->
  exists safe,
    fst (sanitize_name name true w) = Ok safe
    /\ Forall (fun c => PyStr.in_ident_class c = true) (PyStr.chars safe).
Proof.
  intros H. exists (safe_name name true).
  split; [apply sanitize_name_run | now apply safe_name_groupid_ascii].
Qed.

Lemma length_filter_map_chars (p : ascii -> bool) (f : ascii -> ascii)
    (s : string) :
  String.length (PyStr.filter_chars p (PyStr.map_chars f s)) <= String.length s.
Proof.
  induction s as [|c s IH]; cbn [PyStr.filter_chars PyStr.map_chars String.length];
    [lia|].
  destruct (p (f c)); cbn [String.length]; lia.
Qed.

(** X4. The identifier rule never lengthens a name made of ASCII
    characters: it maps each character to one character and drops some. *)
Theorem sanitize_name_groupid_length (name : string) (w : World) :
  Forall (fun c => PyStr.is_ascii c = true) (PyStr.chars name) ->
  exists safe,
    fst (sanitize_name name true w) = Ok safe
    /\ String.length safe <= String.length name.
Proof.
  intros _. exists (safe_name name true). split; [apply sanitize_name_run|].
  rewrite safe_name_groupid. apply length_filter_map_chars.
Qed.

Lemma map_chars_append (f : ascii -> ascii) (a b : string) :
  PyStr.map_chars f (a ++ b) = PyStr.map_chars f a ++ PyStr.map_chars f b.
Proof.
  induction a as [|c a IH]; cbn [append PyStr.map_chars];
    [reflexivity | now rewrite IH].
Qed.

Lemma filter_chars_append (p : ascii -> bool) (a b : string) :
  PyStr.filter_chars p (a ++ b)
  = PyStr.filter_chars p a ++ PyStr.filter_chars p b.
Proof.
  induction a as [|c a IH]; cbn [append PyStr.filter_chars]; [reflexivity|].
  rewrite IH. destruct (p c); reflexivity.
Qed.

(** X5. On names made of ASCII characters the identifier rule works
    character by character: the value for a concatenation is the
    concatenation of the values for the parts. *)
Theorem sanitize_name_groupid_append (a b : string) (w : World) :
  Forall (fun c => PyStr.is_ascii c = true) (PyStr.chars a) ->
  Forall (fun c => PyStr.is_ascii c = true) (PyStr.chars b) ->
  exists safe_a safe_b,
    fst (sanitize_name a true w) = Ok safe_a
    /\ fst (sanitize_name b true w) = Ok safe_b
    /\ fst (sanitize_name (a ++ b) true w) = Ok (safe_a ++ safe_b).
Proof.
  intros _ _. exists (safe_name a true), (safe_name b true).
  repeat split; try apply sanitize_name_run.
  destruct (sanitize_name_run (a ++ b) true w) as [E _]. rewrite E.
  rewrite !safe_name_groupid, map_chars_append, filter_chars_append.
  reflexivity.
Qed.

Lemma ident_char_lower (c : ascii) :
  ident_char (PyStr.char_lower c) = ident_char c.
Proof. each_code_point c. Qed.

Lemma ident_char_space (c : ascii) :
  ident_char (if Ascii.eqb c " " then "_"%char else c) = ident_char c.
Proof. each_code_point c. Qed.

Lemma map_chars_ext (f g : ascii -> ascii) (s : string) :
  (forall c, f c = g c) -> PyStr.map_chars f s = PyStr.map_chars g s.
Proof.
  intros H. induction s as [|c s IH]; cbn [PyStr.map_chars];
    [reflexivity | now rewrite H, IH].
Qed.

(** X6. Names made of ASCII characters that differ only in the case of
    their letters, or only in having a space where the other has an
    underscore, get the same identifier. *)
Theorem sanitize_name_groupid_collisions (name : string) (w : World) :
  Forall (fun c => PyStr.is_ascii c = true) (PyStr.chars name) ->
  fst (sanitize_name (PyStr.lower name) true w) = fst (sanitize_name name true w)
  /\ fst (sanitize_name (PyStr.replace1 " " "_" name) true w)
     = fst (sanitize_name name true w).
Proof.
  intros _.
  destruct (sanitize_name_run name true w) as [E _].
  destruct (sanitize_name_run (PyStr.lower name) true w) as [E1 _].
  destruct (sanitize_name_run (PyStr.replace1 " " "_" name) true w) as [E2 _].
  rewrite E, E1, E2, !safe_name_groupid.
  unfold PyStr.lower, PyStr.replace1. rewrite !map_chars_compose.
  split; f_equal; f_equal; apply map_chars_ext; intros c;
    [apply ident_char_lower | apply ident_char_space].
Qed.

(** ** The creation operations *)

Lemma without_fw_run {A} (callee : M A) (w : World) :
  without_fw callee w = (Raise TypeError, w).
Proof. reflexivity. Qed.

Lemma create_flywheel_group_run (group_label group_id : string) (w : World) :
  let run := create_flywheel_group group_label group_id w in
  fst run = Raise TypeError
  /\ effects (snd run)
     = (store w, api_calls w,
        (requests w ++ [GroupRequest group_label group_id])%list,
        current_project w).
Proof.
  cbv zeta. unfold_ops.
  destruct (negb (safe_name group_label false =? group_label));
  destruct (negb (safe_name group_id true =? group_id));
  split; reflexivity.
Qed.

Lemma create_flywheel_project_run (group_id project_id project_label : string)
    (w : World) :
  let run := create_flywheel_project group_id project_id project_label w in
  fst run = Raise TypeError
  /\ effects (snd run)
     = (store w, api_calls w,
        (requests w ++ [ProjectRequest group_id project_id project_label])%list,
        current_project w).
Proof.
  cbv zeta. unfold_ops.
  destruct (negb (safe_name project_label false =? project_label));
  split; reflexivity.
Qed.

(** C7 (the code at the failing input, and at every input). Entered with
    a client, each creation operation sanitizes its arguments and then
    stops at line 91, or line 126, where [flywheel_path_exists] is called
    without [fw]: the result is [TypeError] in either mode, no id and no
    reference is returned, and no call has been made on the client. *)
Theorem creation_operations_raise :
  (forall group_label group_id w,
      let run := create_flywheel_group group_label group_id w in
      fst run = Raise TypeError
      /\ api_calls (snd run) = api_calls w
      /\ store (snd run) = store w)
  /\ (forall group_id project_id project_label w,
      let run := create_flywheel_project group_id project_id project_label w in
      fst run = Raise TypeError
      /\ api_calls (snd run) = api_calls w
      /\ store (snd run) = store w).
Proof.
  split.
  - intros group_label group_id w. cbv zeta.
    destruct (create_flywheel_group_run group_label group_id w) as [Hr Hw].
    unfold effects in Hw. injection Hw as Hs Ha _ _. auto.
  - intros group_id project_id project_label w. cbv zeta.
    destruct (create_flywheel_project_run group_id project_id project_label w)
      as [Hr Hw].
    unfold effects in Hw. injection Hw as Hs Ha _ _. auto.
Qed.

(** The body of the project operation, case by case of what the call of
    line 126 does in the world [w0] it is made in. *)
Lemma create_flywheel_project_after_cases (probe : string -> M bool)
    (group_id project_id project_label : string) (w : World) :
  let path := group_id ++ "/" ++ project_id in
  let ref := "fw://" ++ group_id ++ "/" ++ project_id in
  let plabel := PyStr.slice_to 64 project_label in
  let run := create_flywheel_project_after probe group_id project_id
               project_label w in
  exists w0,
    api_calls w0 = api_calls w
    /\ match probe path w0 with
       | (Raise e, w1) => fst run = Raise e /\ api_calls (snd run) = api_calls w1
       | (Ok found, w1) =>
           if found || DRYRUN then
             fst run = Ok ref /\ api_calls (snd run) = api_calls w1
           else
             match get_group fw group_id (store w1) with
             | (Raise e, s2) =>
                 fst run = Raise e
                 /\ api_calls (snd run)
                    = (api_calls w1 ++ [CallGetGroup group_id])%list
             | (Ok g, s2) =>
                 fst run = match fst (add_project fw g plabel s2) with
                           | Ok _ => Ok ref
                           | Raise e => Raise e
                           end
                 /\ api_calls (snd run)
                    = (api_calls w1
                       ++ [CallGetGroup group_id; CallAddProject g plabel])%list
             end
       end.
Proof.
  cbv zeta. unfold create_flywheel_project_after. unfold_ops.
  change (safe_name project_label false)
    with (PyStr.slice_to 64 project_label).
  destruct (negb (PyStr.slice_to 64 project_label =? project_label));
    cbn [fst snd store api_calls requests logs current_project];
    match goal with |- context [probe ?p ?w0] => exists w0 end;
    (split; [reflexivity|]);
    match goal with |- context [probe ?p ?w0] =>
      destruct (probe p w0) as [[[|]|e] w1] end;
    cbn [orb]; [ | destruct DRYRUN | | | destruct DRYRUN | ];
    cbn [fst snd store api_calls requests logs current_project];
    try (split; reflexivity);
    destruct (get_group fw group_id (store w1)) as [[g|e2] s2];
    cbn [fst snd store api_calls requests logs current_project];
    try (split; reflexivity);
    destruct (add_project fw g _ s2) as [[[]|e3] s3];
    cbn [fst snd store api_calls requests logs current_project];
    rewrite <- ?app_assoc; split; reflexivity.
Qed.

(** C2 (as amended). [create_flywheel_project] is its body with the call
    of line 126 made without [fw].  Whatever that call does, the body
    sanitizes the label only, hands the call the path
    [<group_id>/<project_id>] with both ids as they were given, and returns
    nothing but the reference [fw://<group_id>/<project_id>]: it returns it
    when the call answers that the path exists, when it answers that it
    does not and dry-run mode is set, and in live mode once [get_group]
    and [add_project] have answered; [get_group] receives the group id as
    given and [add_project] the sanitized label. *)
Theorem create_flywheel_project_reference (probe : string -> M bool)
    (group_id project_id project_label : string) (w : World) :
  let path := group_id ++ "/" ++ project_id in
  let ref := "fw://" ++ group_id ++ "/" ++ project_id in
  let plabel := PyStr.slice_to 64 project_label in
  let run := create_flywheel_project_after probe group_id project_id
               project_label w in
  create_flywheel_project group_id project_id project_label
  = create_flywheel_project_after
      (fun project_path => without_fw (flywheel_path_exists project_path))
      group_id project_id project_label
  /\ (forall r, fst run = Ok r -> r = ref)
  /\ (forall found,
        (forall w', fst (probe path w') = Ok found) ->
        found = true \/ DRYRUN = true ->
        fst run = Ok ref)
  /\ ((forall w', fst (probe path w') = Ok false) ->
      DRYRUN = false ->
      (forall id s, exists g, fst (get_group fw id s) = Ok g) ->
      (forall g label s, fst (add_project fw g label s) = Ok tt) ->
      fst run = Ok ref)
  /\ ((forall w',
          api_calls (snd (probe path w'))
          = (api_calls w' ++ [CallLookup path])%list) ->
      exists rest,
        api_calls (snd run) = (api_calls w ++ CallLookup path :: rest)%list
        /\ Forall (fun c => c = CallGetGroup group_id
                            \/ exists g, c = CallAddProject g plabel)
                  rest).
Proof.
  cbv zeta.
  destruct (create_flywheel_project_after_cases probe group_id project_id
              project_label w) as [w0 [Hcalls H]].
  cbv zeta in H.
  split; [reflexivity|].
  destruct (probe (group_id ++ "/" ++ project_id) w0) as [[found|e] w1] eqn:P.
  - destruct (found || DRYRUN) eqn:FD.
    + destruct H as [Hr Ha]. rewrite Hr, Ha.
      repeat split; try congruence.
      intros Hp. exists []. split; [|constructor].
      specialize (Hp w0). rewrite P in Hp. cbn [snd] in Hp.
      rewrite Hp, Hcalls. reflexivity.
    + apply orb_false_iff in FD. destruct FD as [-> FD].
      destruct (get_group fw group_id (store w1)) as [[g|e] s2] eqn:G;
        destruct H as [Hr Ha]; rewrite Hr, Ha.
      * split; [|split; [|split]].
        -- intros r. destruct (fst (add_project fw g _ s2)); congruence.
        -- intros found Hp [->|Hd]; [|congruence].
           specialize (Hp w0). rewrite P in Hp. discriminate Hp.
        -- intros _ _ _ Hadd. rewrite Hadd. reflexivity.
        -- intros Hp. specialize (Hp w0). rewrite P in Hp. cbn [snd] in Hp.
           eexists. split; [rewrite Hp, Hcalls, <- app_assoc; reflexivity|].
           constructor; [left; reflexivity|].
           constructor; [right; exists g; reflexivity | constructor].
      * split; [|split; [|split]].
        -- congruence.
        -- intros found Hp [->|Hd]; [|congruence].
           specialize (Hp w0). rewrite P in Hp. discriminate Hp.
        -- intros _ _ Hget _. destruct (Hget group_id (store w1)) as [g Hg].
           rewrite G in Hg. discriminate Hg.
        -- intros Hp. specialize (Hp w0). rewrite P in Hp. cbn [snd] in Hp.
           eexists. split; [rewrite Hp, Hcalls, <- app_assoc; reflexivity|].
           constructor; [left; reflexivity | constructor].
  - destruct H as [Hr Ha]. rewrite Hr, Ha.
    split; [|split; [|split]].
    + congruence.
    + intros found Hp _. specialize (Hp w0). rewrite P in Hp. discriminate Hp.
    + intros Hp. specialize (Hp w0). rewrite P in Hp. discriminate Hp.
    + intros Hp. exists []. split; [|constructor].
      specialize (Hp w0). rewrite P in Hp. cbn [snd] in Hp.
      rewrite Hp, Hcalls. reflexivity.
Qed.

(** ** The visitor *)

Lemma get_current_run (w : World) : get_current w = (Ok (current_project w), w).
Proof. reflexivity. Qed.

Lemma visit_center_run (center : Center.t) (p : Project.t) (w : World) :
  current_project w = Some p ->
  visit_center center w = (Raise TypeError, w).
Proof.
  intros H. unfold visit_center.
  rewrite (bind_ok _ _ w w (Some p)) by (rewrite get_current_run, H; reflexivity).
  reflexivity.
Qed.

Lemma create_release_run (project : Project.t) (w : World) :
  create_release project w = (Raise TypeError, w).
Proof. reflexivity. Qed.

(** ** The visitor's guard *)

(** X9. A center visited while no project is current is not acted on: an
    error is logged, the visit returns, and nothing is requested of the
    creation operations or asked of the client. *)
Theorem visit_center_without_project (center : Center.t) (w : World) :
  current_project w = None ->
  let run := visit_center center w in
  fst run = Ok tt
  /\ effects (snd run) = effects w
  /\ logs (snd run) = (logs w ++ [(ERROR, "No project given")])%list.
Proof.
  intros H. cbv zeta. unfold visit_center.
  rewrite (bind_ok _ _ w w None) by (rewrite get_current_run, H; reflexivity).
  repeat split.
Qed.

(** X12. A center visited while a project is current is not provided
    for: the visit stops at line 222, where [create_flywheel_group] is
    called without [fw], with [TypeError] as its result and the world as it
    was; nothing is logged, no creation operation is entered and no call is
    made on the client, whether the center is active or not. *)
Theorem visit_center_with_project (center : Center.t) (p : Project.t)
    (w : World) :
  current_project w = Some p ->
  visit_center center w = (Raise TypeError, w).
Proof. apply visit_center_run. Qed.

(** ** What a run leaves as it was *)

Lemma unchanged_bind {X A B} (f : World -> X) (m : M A) (k : A -> M B) :
  unchanged f m -> (forall a, unchanged f (k a)) -> unchanged f (bind m k).
Proof.
  intros Hm Hk w. unfold bind. specialize (Hm w).
  destruct (m w) as [[a|e] w1]; cbn [snd] in *; [|exact Hm].
  rewrite Hk. exact Hm.
Qed.

Lemma unchanged_for_each {X A} (f : World -> X) (body : A -> M unit)
    (l : list A) :
  (forall x, unchanged f (body x)) -> unchanged f (for_each body l).
Proof.
  intros Hb. induction l as [|x l IH]; cbn [for_each].
  - intros w. reflexivity.
  - apply unchanged_bind; [apply Hb | intros u; exact IH].
Qed.

Lemma unchanged_try_except_else {X A B} (f : World -> X) (body : M A)
    (handler : exn -> option (M B)) (orelse : A -> M B) :
  unchanged f body ->
  (forall e h, handler e = Some h -> unchanged f h) ->
  (forall a, unchanged f (orelse a)) ->
  unchanged f (try_except_else body handler orelse).
Proof.
  intros Hb Hh Ho w. unfold try_except_else. specialize (Hb w).
  destruct (body w) as [[a|e] w1]; cbn [snd] in *.
  - rewrite Ho. exact Hb.
  - destruct (handler e) as [h|] eqn:E; cbn [snd]; [|exact Hb].
    rewrite (Hh e h E). exact Hb.
Qed.

Lemma unchanged_without_fw {X A} (f : World -> X) (callee : M A) :
  unchanged f (without_fw callee).
Proof. intros w. reflexivity. Qed.

(** The visitor's steps, for an observation [f] that logging does not
    affect. *)
Section Unchanged.

Context {X : Type} (f : World -> X).

Hypothesis f_logging : forall lvl msg, unchanged f (logging lvl msg).

Lemma unchanged_ret {A} (a : A) : unchanged f (ret a).
Proof. intros w. reflexivity. Qed.

Lemma unchanged_raise {A} (e : exn) : unchanged f (@raise A e).
Proof. intros w. reflexivity. Qed.

Lemma unchanged_get_current : unchanged f get_current.
Proof. intros w. reflexivity. Qed.

Lemma unchanged_build_project_id (prefix : string) :
  unchanged f (build_project_id prefix).
Proof.
  unfold build_project_id. apply unchanged_bind; [apply unchanged_get_current|].
  intros [p|]; [destruct (Project.is_primary p)|];
    auto using unchanged_ret, unchanged_raise.
Qed.

Lemma unchanged_create_accepted (group_id : string) :
  unchanged f (create_accepted group_id).
Proof.
  unfold create_accepted. apply unchanged_bind; [apply unchanged_get_current|].
  intros [p|]; [|apply unchanged_raise].
  apply unchanged_bind; [apply unchanged_build_project_id|]. intros project_id.
  apply unchanged_bind; [apply unchanged_without_fw | intros r; apply unchanged_ret].
Qed.

Lemma unchanged_create_ingest (group_id : string) :
  unchanged f (create_ingest group_id).
Proof.
  unfold create_ingest. apply unchanged_bind; [apply unchanged_get_current|].
  intros [p|]; [|apply unchanged_raise].
  apply unchanged_for_each. intros datatype.
  apply unchanged_bind; [apply unchanged_build_project_id|]. intros project_id.
  apply unchanged_bind; [apply unchanged_without_fw | intros r; apply unchanged_ret].
Qed.

Lemma unchanged_visit_center (center : Center.t) :
  unchanged f (visit_center center).
Proof.
  unfold visit_center. apply unchanged_bind; [apply unchanged_get_current|].
  intros [p|]; [|apply f_logging].
  apply unchanged_bind; [apply unchanged_without_fw|]. intros group_id.
  apply unchanged_bind; [|intros u; apply unchanged_create_accepted].
  destruct (Center.is_active center); [destruct (Project.datatypes p)|];
    auto using unchanged_create_ingest.
Qed.

Lemma unchanged_create_release (project : Project.t) :
  unchanged f (create_release project).
Proof.
  unfold create_release.
  apply unchanged_bind; [apply unchanged_without_fw|]. intros group_id.
  apply unchanged_bind; [apply unchanged_without_fw | intros r; apply unchanged_ret].
Qed.

Lemma unchanged_centers (project : Project.t) :
  unchanged f
    (match Project.centers project with
     | _ :: _ => for_each Center_apply (Project.centers project)
     | [] =>
         logging WARNING
           ("Not creating center groups for project " ++ Project.name project
            ++ ": no centers given")
     end).
Proof.
  destruct (Project.centers project) eqn:C; [apply f_logging|].
  apply unchanged_for_each. intros center. apply unchanged_visit_center.
Qed.

Lemma unchanged_release (project : Project.t) :
  unchanged f
    (if Project.is_published project then create_release project
     else
       logging INFO
         ("Project " ++ Project.name project ++ " has no release project")).
Proof.
  destruct (Project.is_published project);
    [apply unchanged_create_release | apply f_logging].
Qed.

Lemma unchanged_visit_project (project : Project.t) :
  (forall p, unchanged f (set_current p)) ->
  unchanged f (visit_project project).
Proof.
  intros S. unfold visit_project.
  apply unchanged_bind; [apply S|]. intros u.
  apply unchanged_bind; [apply unchanged_centers|]. intros u'.
  apply unchanged_bind; [apply unchanged_release | intros u''; apply S].
Qed.

Lemma unchanged_main (project_file : string) (loaded : result generator) :
  (forall p, unchanged f (set_current p)) ->
  unchanged f (main project_file loaded).
Proof.
  intros S. unfold main. apply unchanged_bind.
  - apply unchanged_try_except_else.
    + intros w. reflexivity.
    + intros e h E. destruct e; try discriminate E. injection E as <-.
      apply unchanged_bind; [apply f_logging|]. intros u.
      apply unchanged_bind; [|intros u'; apply unchanged_raise].
      destruct mark; auto using unchanged_ret, unchanged_raise.
    + intros g w. reflexivity.
  - intros project_list. apply unchanged_bind; [apply S|]. intros u.
    apply unchanged_for_each. intros project_doc.
    apply unchanged_bind; [intros w; reflexivity|]. intros project.
    apply unchanged_visit_project. exact S.
Qed.

End Unchanged.

(** X10. In dry-run mode the script makes no call on the client other
    than lookups: whatever the input and whatever the client answers or
    raises, [main] adds no [add_group], [get_group] or [add_project] call. *)
Theorem dry_run_never_mutates (project_file : string) (loaded : result generator)
    (w : World) :
  DRYRUN = true ->
  mutations (snd (main project_file loaded w)) = mutations w.
Proof.
  intros dry. revert w.
  change (unchanged mutations (main project_file loaded)).
  apply unchanged_main.
  - intros lvl msg w. reflexivity.
  - intros p w. reflexivity.
Qed.

(** X11. A visit of a project that returns leaves the visitor without a
    current project; a visit that raises leaves the project current: the
    field is reset on the normal path only. *)
Theorem visit_project_current (project : Project.t) (w : World) :
  let run := visit_project project w in
  match fst run with
  | Ok _ => current_project (snd run) = None
  | Raise _ => current_project (snd run) = Some project
  end.
Proof.
  cbv zeta.
  assert (L : forall lvl msg, unchanged current_project (logging lvl msg))
    by (intros lvl msg w'; reflexivity).
  pose proof (unchanged_centers current_project L project) as HC.
  pose proof (unchanged_release current_project L project) as HR.
  unfold visit_project.
  match goal with
  | |- context [bind _ (fun _ => bind ?c (fun _ => bind ?r _))] =>
      set (C := c) in *; set (R := r) in *
  end.
  unfold bind. cbn [set_current].
  set (w0 := {| store := store w; api_calls := api_calls w;
                requests := requests w; logs := logs w;
                current_project := Some project |}).
  specialize (HC w0).
  destruct (C w0) as [[u|e] w1]; cbn [fst snd] in *; [|exact HC].
  specialize (HR w1).
  destruct (R w1) as [[u'|e] w2]; cbn [fst snd] in *; [reflexivity|].
  rewrite HR. exact HC.
Qed.

(** C4. A run of the script never reaches the client: [main] stops at
    the first creation call it comes to, and nothing it does before that
    calls the client.  So the first run leaves the remote state as it
    found it, and the second run, started on the state the first one left,
    makes no call at all: no [add_group], no [add_project], and no lookup
    that could report a path absent.  This holds in either mode and for
    every input. *)
Theorem second_run_creates_nothing (project_file : string)
    (loaded : result generator) (s : remote fw) :
  let first := main project_file loaded (boot s) in
  let second := main project_file loaded (boot (store (snd first))) in
  store (snd first) = s
  /\ api_calls (snd first) = []
  /\ api_calls (snd second) = []
  /\ mutations (snd second) = [].
Proof.
  cbv zeta.
  assert (A : unchanged api_calls (main project_file loaded)).
  { apply unchanged_main; intros; intros w; reflexivity. }
  assert (St : unchanged store (main project_file loaded)).
  { apply unchanged_main; intros; intros w; reflexivity. }
  unfold mutations. rewrite !A, St. repeat split.
Qed.

(** X13. A visit of a project returns only for a project that has no
    center and is not published; for any other project it ends with
    [TypeError], raised by the visit of the first center or, when there is
    none, by [create_release].  Either way no creation operation has been
    entered and no call has been made on the client. *)
Theorem visit_project_outcome (project : Project.t) (w : World) :
  let run := visit_project project w in
  (fst run = Ok tt
   <-> Project.centers project = [] /\ Project.is_published project = false)
  /\ (fst run = Ok tt \/ fst run = Raise TypeError)
  /\ requests (snd run) = requests w
  /\ api_calls (snd run) = api_calls w.
Proof.
  cbv zeta.
  assert (Q : unchanged requests (visit_project project))
    by (apply unchanged_visit_project; intros; intros w'; reflexivity).
  assert (A : unchanged api_calls (visit_project project))
    by (apply unchanged_visit_project; intros; intros w'; reflexivity).
  rewrite Q, A.
  assert (R : if match Project.centers project with [] => true | _ => false end
                 && negb (Project.is_published project)
              then fst (visit_project project w) = Ok tt
              else fst (visit_project project w) = Raise TypeError).
  { unfold visit_project.
    destruct (Project.centers project) as [|center rest]; cbn [andb];
      [destruct (Project.is_published project)|]; reflexivity. }
  destruct (Project.centers project) as [|center rest];
    [destruct (Project.is_published project)|]; cbn [andb negb] in R;
    rewrite R; repeat split; auto; try discriminate;
    intros [H1 H2]; discriminate.
Qed.

(** ** A traversal that fails *)

Lemma for_each_raises {A} (body : A -> M unit) (before after : list A) (x : A)
    (e : exn) (w0 w1 w2 : World) :
  for_each body before w0 = (Ok tt, w1) ->
  body x w1 = (Raise e, w2) ->
  for_each body (before ++ x :: after) w0 = (Raise e, w2).
Proof.
  revert w0. induction before as [|y before IH]; intros w0 Hb Hx;
    cbn [for_each app] in *.
  - unfold ret in Hb. injection Hb as <-.
    apply (bind_raise _ _ w0 w2 e Hx).
  - unfold bind in *. destruct (body y w0) as [[[]|e'] w']; [|discriminate].
    apply IH; assumption.
Qed.

(** X18. A visit of a project stops at the first center whose visit
    raises: the exception is the result of the visit of the project, the
    world is the one that center left, so no later center is visited and no
    release structure is requested. *)
Theorem visit_project_aborts (project : Project.t) (before after : list Center.t)
    (center : Center.t) (e : exn) (w w1 w2 : World) :
  Project.centers project = (before ++ center :: after)%list ->
  for_each Center_apply before (snd (set_current (Some project) w)) = (Ok tt, w1) ->
  visit_center center w1 = (Raise e, w2) ->
  visit_project project w = (Raise e, w2).
Proof.
  intros Hc Hb Hx. unfold visit_project.
  rewrite (bind_ok _ _ w (snd (set_current (Some project) w)) tt) by reflexivity.
  apply bind_raise.
  rewrite Hc. destruct (before ++ center :: after)%list eqn:E.
  - destruct before; discriminate E.
  - rewrite <- E. apply (for_each_raises _ _ _ _ _ _ w1); assumption.
Qed.

End Script.

Arguments store {fw} w.
Arguments api_calls {fw} w.
Arguments requests {fw} w.
Arguments logs {fw} w.
Arguments current_project {fw} w.
Arguments mkWorld {fw}.

(** * The claims at concrete inputs *)

(** C1, the claim as stated fails: an [ApiException] whose status is not
    404 does not leave the probe, the probe answers true. *)
Lemma flywheel_path_exists_swallows_api_error :
  ~ (forall (fw : Client) (fwpath : string) (w : World fw) (status : Z),
        status <> 404%Z ->
        fst (lookup fw fwpath (store w)) = Raise (ApiException status) ->
        fst (flywheel_path_exists fw fwpath w) = Raise (ApiException status)).
Proof.
  intros H.
  specialize (H Sample.failing_500 "adrc" (boot Sample.failing_500 tt) 500%Z).
  cbn in H. assert (E : 500%Z <> 404%Z) by discriminate.
  specialize (H E eq_refl). discriminate H.
Qed.

Lemma flywheel_path_exists_answers_witness :
  let fw := Sample.failing_500 in
  fst (lookup fw "adrc" tt) = Raise (ApiException 500)
  /\ 500%Z <> 404%Z
  /\ fst (flywheel_path_exists fw "adrc" (boot fw tt)) = Ok true.
Proof.
  cbv zeta. split; [reflexivity|]. split; [discriminate|].
  refine (proj1 (proj2 (flywheel_path_exists_answers Sample.failing_500 "adrc"
                          (boot Sample.failing_500 tt))) 500%Z eq_refl _).
  discriminate.
Defined.

(** C2, the claim as stated fails: entered with a client, the operation
    returns no reference at all; and when the call of line 126 is one that
    answers, the reference the body returns is not
    [<group_id>/<project_id>]. *)
Lemma create_flywheel_project_not_bare_path :
  fst (create_flywheel_project Sample.absent true "site-a" "accepted"
         "ADRC Accepted" (boot Sample.absent tt))
  = Raise TypeError
  /\ ~ (forall (fw : Client) (DRYRUN : bool) (probe : string -> M fw bool)
               (group_id project_id label : string) (w : World fw) (r : string),
           fst (create_flywheel_project_after fw DRYRUN probe group_id
                  project_id label w) = Ok r ->
           r = group_id ++ "/" ++ project_id).
Proof.
  split; [reflexivity|].
  intros H.
  specialize (H Sample.absent true (flywheel_path_exists Sample.absent)
                "site-a" "accepted" "ADRC Accepted" (boot Sample.absent tt)
                "fw://site-a/accepted" eq_refl).
  discriminate H.
Qed.

Lemma create_flywheel_project_reference_witness :
  let fw := Sample.absent in
  let probe := flywheel_path_exists fw in
  (forall w', fst (probe "site-a/accepted" w') = Ok false)
  /\ fst (create_flywheel_project_after fw true probe "site-a" "accepted"
            "ADRC Accepted" (boot fw tt))
     = Ok "fw://site-a/accepted".
Proof.
  cbv zeta.
  assert (P : forall w',
             fst (flywheel_path_exists Sample.absent "site-a/accepted" w')
             = Ok false)
    by (intros w'; reflexivity).
  split; [exact P|].
  exact (proj1 (proj2 (proj2
           (create_flywheel_project_reference Sample.absent true
              (flywheel_path_exists Sample.absent)
              "site-a" "accepted" "ADRC Accepted" (boot Sample.absent tt))))
           false P (or_intror eq_refl)).
Defined.

(** C5 (the code at the failing input). The inactive center "X" is
    visited for the project "ADRC" with datatypes form and dicom: the
    visit stops at line 222 with [TypeError] and leaves the world as it
    was, so no ingest request is made, and no request for the accepted
    project either. *)
Theorem visit_center_inactive_raises (fw : Client) (DRYRUN : bool)
    (s : remote fw) :
  let w := @mkWorld fw s [] [] [] (Some Sample.with_inactive) in
  let run := visit_center fw DRYRUN Sample.slug Sample.capitalize
               Sample.site_x w in
  Center.is_active Sample.site_x = false
  /\ fst run = Raise TypeError
  /\ requests (snd run) = []
  /\ api_calls (snd run) = [].
Proof. cbv zeta. repeat split. Qed.

(** C6 (the code at the failing input). For the published project "ADRC"
    [create_release] stops at line 150 with [TypeError], and so does the
    visit of the project: no group "ADRC Release" and no project
    "master-project" is requested or created. *)
Theorem create_release_raises (fw : Client) (DRYRUN : bool) (w : World fw) :
  let run := visit_project fw DRYRUN Sample.slug Sample.capitalize
               Sample.adrc_release_only w in
  Project.is_published Sample.adrc_release_only = true
  /\ create_release fw DRYRUN Sample.slug Sample.adrc_release_only w
     = (Raise TypeError, w)
  /\ fst run = Raise TypeError
  /\ requests (snd run) = requests w
  /\ api_calls (snd run) = api_calls w
  /\ store (snd run) = store w.
Proof. cbv zeta. repeat split. Qed.

(** C8 (the code at the failing inputs). A YAML error raised while
    [list()] reads the generator leaves [main] uncaught: the process ends
    with status 1 and nothing has been logged, neither the file name nor a
    line and a column.  A well-formed document with a center ends the
    process with status 1 as well, through the [TypeError] of line 222. *)
Theorem main_parse_error_escapes (fw : Client) (DRYRUN : bool) (s : remote fw)
    (mark : problem_mark) :
  let run := run_script fw DRYRUN Sample.slug Sample.capitalize Project.t
               (@Ok Project.t) "adrc.yaml" in
  let parse_error := run (Ok (Raise (YAMLError mark))) s in
  let well_formed := run (Ok (Ok [Sample.adrc])) s in
  fst parse_error = 1%Z
  /\ logs (snd parse_error) = []
  /\ api_calls (snd parse_error) = []
  /\ fst well_formed = 1%Z
  /\ api_calls (snd well_formed) = [].
Proof. cbv zeta. repeat split. Qed.

Lemma lower_char_settled (c : ascii) :
  PyStr.char_lower (PyStr.char_lower c) = PyStr.char_lower c.
Proof. destruct c as [[] [] [] [] [] [] [] []]; reflexivity. Qed.

Lemma latin1_lower_settles : AnyStr.lower_settles AnyStr.latin1_lower.
Proof.
  intros s t H. unfold AnyStr.latin1_lower.
  induction H as [|c t Hc _ IH]; cbn [map]; [reflexivity|].
  rewrite IH. f_equal.
  destruct Hc as [Hin | ->]; [|reflexivity].
  apply in_map_iff in Hin. destruct Hin as [n [E _]]. subst c.
  unfold PyStr.chr, PyStr.ord.
  rewrite ascii_N_embedding. fold (PyStr.chr n).
  rewrite lower_char_settled. reflexivity.
Qed.

Lemma identifier_rule_idempotent_witness :
  let rule := fun name =>
    AnyStr.safe_name AnyStr.latin1_lower AnyStr.latin1_isalnum name true in
  AnyStr.lower_settles AnyStr.latin1_lower
  /\ rule Sample.site_a_bang = [115; 105; 116; 101; 95; 97]%N
  /\ rule (rule Sample.site_a_bang) = rule Sample.site_a_bang.
Proof.
  cbv zeta. split; [exact latin1_lower_settles|].
  split; [vm_compute; reflexivity|].
  exact (identifier_rule_idempotent AnyStr.latin1_lower AnyStr.latin1_isalnum
           Sample.site_a_bang latin1_lower_settles).
Defined.

(** * The further properties at concrete inputs *)

Lemma sanitize_name_groupid_ascii_class_witness :
  Forall (fun c => PyStr.is_ascii c = true) (PyStr.chars "Site A!")
  /\ exists safe,
       fst (sanitize_name Sample.absent "Site A!" true
              (boot Sample.absent tt)) = Ok safe
       /\ Forall (fun c => PyStr.in_ident_class c = true) (PyStr.chars safe).
Proof.
  assert (A : Forall (fun c => PyStr.is_ascii c = true) (PyStr.chars "Site A!"))
    by (repeat constructor).
  split; [exact A|].
  exact (sanitize_name_groupid_ascii_class Sample.absent "Site A!"
           (boot Sample.absent tt) A).
Defined.

Lemma sanitize_name_groupid_length_witness :
  Forall (fun c => PyStr.is_ascii c = true) (PyStr.chars "Site A!")
  /\ exists safe,
       fst (sanitize_name Sample.absent "Site A!" true
              (boot Sample.absent tt)) = Ok safe
       /\ String.length safe <= 7.
Proof.
  assert (A : Forall (fun c => PyStr.is_ascii c = true) (PyStr.chars "Site A!"))
    by (repeat constructor).
  split; [exact A|].
  exact (sanitize_name_groupid_length Sample.absent "Site A!"
           (boot Sample.absent tt) A).
Defined.

Lemma sanitize_name_groupid_append_witness :
  Forall (fun c => PyStr.is_ascii c = true) (PyStr.chars "Site ")
  /\ Forall (fun c => PyStr.is_ascii c = true) (PyStr.chars "A!")
  /\ exists safe_a safe_b,
       fst (sanitize_name Sample.absent "Site " true (boot Sample.absent tt))
       = Ok safe_a
       /\ fst (sanitize_name Sample.absent "A!" true (boot Sample.absent tt))
          = Ok safe_b
       /\ fst (sanitize_name Sample.absent "Site A!" true
                 (boot Sample.absent tt))
          = Ok (safe_a ++ safe_b).
Proof.
  assert (A : Forall (fun c => PyStr.is_ascii c = true) (PyStr.chars "Site "))
    by (repeat constructor).
  assert (B : Forall (fun c => PyStr.is_ascii c = true) (PyStr.chars "A!"))
    by (repeat constructor).
  split; [exact A|]. split; [exact B|].
  exact (sanitize_name_groupid_append Sample.absent "Site " "A!"
           (boot Sample.absent tt) A B).
Defined.

Lemma sanitize_name_groupid_collisions_witness :
  let w := boot Sample.absent tt in
  Forall (fun c => PyStr.is_ascii c = true) (PyStr.chars "Site A")
  /\ fst (sanitize_name Sample.absent "site a" true w)
     = fst (sanitize_name Sample.absent "Site A" true w)
  /\ fst (sanitize_name Sample.absent "Site_A" true w)
     = fst (sanitize_name Sample.absent "Site A" true w).
Proof.
  cbv zeta.
  assert (A : Forall (fun c => PyStr.is_ascii c = true) (PyStr.chars "Site A"))
    by (repeat constructor).
  split; [exact A|].
  exact (sanitize_name_groupid_collisions Sample.absent "Site A"
           (boot Sample.absent tt) A).
Defined.

Lemma visit_center_without_project_witness :
  let w := boot Sample.absent tt in
  let run := visit_center Sample.absent false Sample.slug Sample.capitalize
               Sample.site_x w in
  current_project w = None
  /\ fst run = Ok tt
  /\ requests (snd run) = []
  /\ api_calls (snd run) = []
  /\ logs (snd run) = [(ERROR, "No project given")].
Proof.
  cbv zeta. split; [reflexivity|].
  pose proof (visit_center_without_project Sample.absent false Sample.slug
                Sample.capitalize Sample.site_x (boot Sample.absent tt)
                eq_refl) as H.
  cbv zeta in H. destruct H as [Hr [He Hl]].
  split; [exact Hr|].
  split; [exact (f_equal (fun t => snd (fst t)) He)|].
  split; [exact (f_equal (fun t => snd (fst (fst t))) He) | exact Hl].
Defined.

Lemma visit_center_with_project_witness :
  let w := @mkWorld Sample.absent tt [] [] [] (Some Sample.adrc) in
  current_project w = Some Sample.adrc
  /\ visit_center Sample.absent true Sample.slug Sample.capitalize
       (Center.Build "Site A" true) w
     = (Raise TypeError, w).
Proof.
  cbv zeta. split; [reflexivity|].
  exact (visit_center_with_project Sample.absent true Sample.slug
           Sample.capitalize (Center.Build "Site A" true) Sample.adrc
           (@mkWorld Sample.absent tt [] [] [] (Some Sample.adrc)) eq_refl).
Defined.

Lemma dry_run_never_mutates_witness :
  mutations Sample.unreachable
    (snd (main Sample.unreachable true Sample.slug Sample.capitalize
            Project.t (@Ok Project.t) "adrc.yaml" (Ok (Ok [Sample.adrc]))
            (boot Sample.unreachable tt)))
  = [].
Proof.
  exact (dry_run_never_mutates Sample.unreachable true Sample.slug
           Sample.capitalize Project.t (@Ok Project.t) "adrc.yaml"
           (Ok (Ok [Sample.adrc])) (boot Sample.unreachable tt) eq_refl).
Defined.

Lemma visit_project_aborts_witness :
  let fw := Sample.unreachable in
  let project :=
    Project.Build "ADRC" [Center.Build "Site A" true; Sample.site_x] ["form"]
      true true in
  let w0 := @mkWorld fw tt [] [] [] (Some project) in
  visit_center fw true Sample.slug Sample.capitalize
    (Center.Build "Site A" true) w0
  = (Raise TypeError, w0)
  /\ visit_project fw true Sample.slug Sample.capitalize project (boot fw tt)
     = (Raise TypeError, w0).
Proof.
  cbv zeta. split; [reflexivity|].
  exact (visit_project_aborts Sample.unreachable true Sample.slug
           Sample.capitalize
           (Project.Build "ADRC" [Center.Build "Site A" true; Sample.site_x]
              ["form"] true true)
           [] [Sample.site_x] (Center.Build "Site A" true)
           TypeError (boot Sample.unreachable tt)
           _ _ eq_refl eq_refl eq_refl).
Defined.
